(** * GGB_Converter: extract_points.py

    A shallow embedding of [extract_points_from_ggb], the function that
    opens a GeoGebra archive, walks the element tree of [geogebra.xml],
    collects the labelled points and writes them to a CSV file.

    The Python standard library is modelled as far as the function uses it:
    - [xml.etree.ElementTree]: the element tree, [Element.get],
      [Element.find] with a tag, [Element.iter], and the ElementPath
      selectors behind [findall(".//element[@type='point']")];
    - [float] on a string and [str] of a float (binary64);
    - [pathlib.PurePosixPath.stem], [posixpath.dirname], [posixpath.join];
    - [csv.DictWriter] with the default (excel) dialect, and [csv.reader]
      with the same dialect, which the function does not call, to say what
      reading the file back gives;
    - [zipfile.ZipFile] and [ET.fromstring] are parameters: what they make
      of a file's bytes is not decided here.

    Python [str] values are byte strings holding UTF-8. *)

From Stdlib Require Import ZArith List Bool Ascii String Lia.
From Stdlib Require Import Numbers.DecimalString.
From Stdlib Require Import Floats.SpecFloat.
From stdpp Require Import base option list strings gmap sorting.

Local Open Scope string_scope.
Local Open Scope list_scope.

(** ** The element tree of xml.etree.ElementTree *)

Module ET.

(** [Element]: a tag, the attribute dictionary and the child elements in
    document order.  [ET.fromstring] builds no comment or processing
    instruction nodes, so every node is of this form. *)
#[warnings="-register-all"]
Inductive Element : Type :=
| Elem (tag : string) (attrib : gmap string string) (children : list Element).

Definition tag (e : Element) : string :=
  match e with Elem t _ _ => t end.

Definition attrib (e : Element) : gmap string string :=
  match e with Elem _ a _ => a end.

Definition children (e : Element) : list Element :=
  match e with Elem _ _ cs => cs end.

(** [Element.get(key, default)]. *)
Definition get (e : Element) (key dflt : string) : string :=
  default dflt (attrib e !! key).

(** [Element.get(key)], whose default is [None]. *)
Definition get_opt (e : Element) (key : string) : option string :=
  attrib e !! key.

(** A node of a tree is named by its position: the child indices on the way
    down from the element the search started at.  Python compares nodes by
    identity ([e is not elem]); two nodes of one tree are the same object
    exactly when their positions agree. *)
Definition position := list nat.

Definition node : Type := position * Element.

(** [Element.iter(tag)]:
<<
    if tag is None or self.tag == tag: yield self
    for e in self._children: yield from e.iter(tag)
>>
    The nodes come out in document order, each with its position. *)
Fixpoint iter_from (tg : option string) (pos : position) (e : Element)
  : list node :=
  match e with
  | Elem t a cs =>
      (match tg with
       | None => [(pos, e)]
       | Some t' => if String.eqb t t' then [(pos, e)] else []
       end)
      ++ (fix over (i : nat) (l : list Element) : list node :=
            match l with
            | [] => []
            | c :: l' => iter_from tg (pos ++ [i]) c ++ over (S i) l'
            end) 0 cs
  end.

(** The loop over the children, named so that lemmas can speak of it. *)
Fixpoint iter_children (tg : option string) (pos : position) (i : nat)
  (l : list Element) : list node :=
  match l with
  | [] => []
  | c :: l' => iter_from tg (pos ++ [i]) c ++ iter_children tg pos (S i) l'
  end.

(** The element found by walking down [pos] from [e]. *)
Fixpoint subtree_at (e : Element) (pos : position) : option Element :=
  match pos with
  | [] => Some e
  | i :: pos' =>
      match children e !! i with
      | Some c => subtree_at c pos'
      | None => None
      end
  end.

(** [e] passes the tag test of [iter(tag)]. *)
Definition tag_matches (tg : option string) (e : Element) : Prop :=
  match tg with
  | None => True
  | Some t => tag e = t
  end.

(** Document order on positions: an element comes before its descendants,
    and the subtree of a child before the subtrees of its later siblings. *)
Fixpoint doc_before (p q : position) : Prop :=
  match p, q with
  | [], _ :: _ => True
  | i :: p', j :: q' => (i < j)%nat \/ (i = j /\ doc_before p' q')
  | _, _ => False
  end.

Definition node_before (n1 n2 : node) : Prop := doc_before n1.1 n2.1.

(** *** ElementPath selectors

    [iterfind] tokenizes the path and folds one selector per step over the
    list [[elem]].  The path [.//element[@type='point']] has three steps. *)

(** [prepare_self] (the step [.]): the result is passed on unchanged. *)
Definition select_self (result : list node) : list node := result.

(** [prepare_descendant] (the step [//tag]):
<<
    for elem in result:
        for e in elem.iter(tag):
            if e is not elem:
                yield e
>> *)
Definition select_descendant (tg : string) (result : list node) : list node :=
  flat_map
    (fun elem : node =>
       filter (fun e : node => e.1 ≠ elem.1)
              (iter_from (Some tg) elem.1 elem.2))
    result.

(** [prepare_predicate] for [[@key='value']]:
<<
    for elem in result:
        if elem.get(key) == value:
            yield elem
>> *)
Definition select_attrib_eq (key value : string) (result : list node)
  : list node :=
  filter (fun elem : node => get_opt elem.2 key = Some value) result.

(** [prepare_child] (a step that is a plain tag):
<<
    for elem in result:
        for e in elem:
            if e.tag == tag:
                yield e
>> *)
Definition select_child (tg : string) (result : list node) : list node :=
  flat_map
    (fun elem : node =>
       filter (fun e : node => tag e.2 = tg)
              (imap (fun i c => (elem.1 ++ [i], c)) (children elem.2)))
    result.

(** [root.findall(".//element[@type='point']")], with positions. *)
Definition findall_point_nodes (root : Element) : list node :=
  select_attrib_eq "type" "point"
    (select_descendant "element"
       (select_self [([], root)])).

Definition findall_points (root : Element) : list Element :=
  map snd (findall_point_nodes root).

(** [elem.find(tag)]: [next(iterfind(elem, tag), None)]. *)
Definition find (e : Element) (tg : string) : option Element :=
  head (map snd (select_child tg [([], e)])).

End ET.

(** ** Python floats: [float(str)] and [str(float)] *)

Module PyFloat.

Local Open Scope Z_scope.

(** A Python float is an IEEE 754 binary64 number. *)
Definition prec : Z := 53.
Definition emax : Z := 1024.


(** *** Characters *)

Definition code (c : ascii) : Z := Z.of_nat (nat_of_ascii c).

(** [Py_ISSPACE]: space, and the controls 9 to 13. *)
Definition is_space (c : ascii) : bool :=
  (code c =? 32) || ((9 <=? code c) && (code c <=? 13)).

(** [Py_ISDIGIT]. *)
Definition is_digit (c : ascii) : bool :=
  (48 <=? code c) && (code c <=? 57).

Definition digit_val (c : ascii) : Z := code c - 48.

(** [Py_TOLOWER]. *)
Definition to_lower (c : ascii) : ascii :=
  if (65 <=? code c) && (code c <=? 90)
  then ascii_of_nat (nat_of_ascii c + 32) else c.

Definition underscore : ascii := "_"%char.

(** *** Rounding a positive rational to binary64

    [N / D] is scaled so that the integer quotient has more than 64 bits;
    a nonzero remainder is kept as a sticky lowest bit, and
    [binary_round] rounds the result to nearest, ties to even, with
    gradual underflow and overflow to infinity. *)
Definition round_ratio (neg : bool) (N D : Z) : spec_float :=
  let s := Z.max 0 (65 + Z.log2 D - Z.log2 N) in
  let q := (N * 2 ^ s) / D in
  let r := (N * 2 ^ s) mod D in
  let m := 2 * q + (if r =? 0 then 0 else 1) in
  match m with
  | Zpos p => binary_round prec emax neg p (- s - 1)
  | _ => S754_zero neg
  end.

(** The number of decimal digits of a positive integer, by trial. *)
Fixpoint count_digits (fuel : nat) (n : Z) : Z :=
  match fuel with
  | O => 0
  | S fuel' => if n <? 10 then 1 else 1 + count_digits fuel' (n / 10)
  end.

Definition num_digits (n : Z) : Z :=
  count_digits (S (Z.to_nat (Z.log2 n))) n.

(** The value [M * 10^E] as a binary64.  Exponents far outside the range
    of binary64 are settled without computing the power of ten. *)
Definition of_decimal (neg : bool) (M E : Z) : spec_float :=
  if M <=? 0 then S754_zero neg
  else
    let top := num_digits M + E in
    if 400 <? top then S754_infinity neg
    else if top <? -400 then S754_zero neg
    else if 0 <=? E then round_ratio neg (M * 10 ^ E) 1
    else round_ratio neg M (10 ^ (- E)).

(** *** The grammar of [float(str)] *)

Fixpoint lstrip (s : list ascii) : list ascii :=
  match s with
  | c :: s' => if is_space c then lstrip s' else s
  | [] => []
  end.

Definition strip (s : list ascii) : list ascii :=
  rev (lstrip (rev (lstrip s))).

(** [_Py_string_to_number_with_underscores]: an underscore is dropped when
    it stands between two digits, and is an error anywhere else. *)
Fixpoint drop_underscores (prev : ascii) (s : list ascii)
  : option (list ascii) :=
  match s with
  | [] => if Ascii.eqb prev underscore then None else Some []
  | c :: s' =>
      if Ascii.eqb c underscore then
        if is_digit prev then drop_underscores c s' else None
      else if Ascii.eqb prev underscore && negb (is_digit c) then None
      else cons c <$> drop_underscores c s'
  end.

(** Leading digits and the rest. *)
Fixpoint span_digits (s : list ascii) : list ascii * list ascii :=
  match s with
  | c :: s' =>
      if is_digit c
      then let '(ds, rest) := span_digits s' in (c :: ds, rest)
      else ([], s)
  | [] => ([], [])
  end.

Definition digits_value (ds : list ascii) : Z :=
  fold_left (fun acc c => 10 * acc + digit_val c) ds 0.

(** An optional sign: is it a minus, and what follows. *)
Definition take_sign (s : list ascii) : bool * list ascii :=
  match s with
  | c :: s' =>
      if Ascii.eqb c "-"%char then (true, s')
      else if Ascii.eqb c "+"%char then (false, s')
      else (false, s)
  | [] => (false, [])
  end.

(** The exponent part: nothing, or [e] or [E], an optional sign and at
    least one digit, up to the end of the string. *)
Definition parse_exponent (s : list ascii) : option Z :=
  match s with
  | [] => Some 0
  | c :: s' =>
      if Ascii.eqb (to_lower c) "e"%char then
        let '(neg, s'') := take_sign s' in
        match span_digits s'' with
        | ((_ :: _) as ds, []) =>
            Some (if neg then - digits_value ds else digits_value ds)
        | _ => None
        end
      else None
  end.

(** [_Py_dg_strtod] on what follows the sign, required to use up the whole
    string: digits, an optional point and more digits, with a digit
    somewhere, then the exponent part. *)
Definition parse_decimal (neg : bool) (s : list ascii) : option spec_float :=
  let '(ip, s1) := span_digits s in
  let '(fp, s2) :=
    match s1 with
    | c :: s1' => if Ascii.eqb c "."%char then span_digits s1' else ([], s1)
    | [] => ([], [])
    end in
  match ip ++ fp with
  | [] => None
  | ds =>
      match parse_exponent s2 with
      | Some e => Some (of_decimal neg (digits_value ds)
                                   (e - Z.of_nat (length fp)))
      | None => None
      end
  end.

(** [_Py_parse_inf_or_nan] on what follows the sign, case-insensitive. *)
Definition parse_inf_or_nan (neg : bool) (s : list ascii)
  : option spec_float :=
  let w := string_of_list_ascii (map to_lower s) in
  if String.eqb w "inf" || String.eqb w "infinity"
  then Some (S754_infinity neg)
  else if String.eqb w "nan" then Some S754_nan
  else None.

(** [float(s)] for a string [s]; [None] stands for [ValueError].
    Surrounding white space is stripped, underscores between digits are
    dropped, and the rest is a decimal numeral, an infinity or a NaN.
    Decimal digits and spaces outside ASCII, which Python also takes, are
    not recognised here. *)
Definition float (s : string) : option spec_float :=
  match drop_underscores "000"%char (strip (list_ascii_of_string s)) with
  | None => None
  | Some t =>
      let '(neg, u) := take_sign t in
      match parse_decimal neg u with
      | Some f => Some f
      | None => parse_inf_or_nan neg u
      end
  end.

(** *** [str(float)]

    [float.__repr__] is [PyOS_double_to_string(x, 'r', 0, Py_DTSF_ADD_DOT_0)]:
    the shortest decimal digit string that [float] reads back as the same
    number ([_Py_dg_dtoa] in mode 0), laid out by [format_float_short]. *)

(** [N / D] divided by [10^k]. *)
Definition scale10 (N D k : Z) : Z * Z :=
  if 0 <=? k then (N, D * 10 ^ k) else (N * 10 ^ (- k), D).

(** The least [o], from a start below it, with [N / D < 10^o]. *)
Fixpoint adjust_order (fuel : nat) (N D o : Z) : Z :=
  match fuel with
  | O => o
  | S fuel' =>
      let '(n, d) := scale10 N D o in
      if n <? d then o else adjust_order fuel' N D (o + 1)
  end.

Definition decimal_order (N D : Z) : Z :=
  adjust_order 8 N D (((Z.log2 N - Z.log2 D - 1) * 30103) / 100000 - 1).

(** The positive value of a finite float as a ratio. *)
Definition to_ratio (m : positive) (e : Z) : Z * Z :=
  if 0 <=? e then (Zpos m * 2 ^ e, 1) else (Zpos m, 2 ^ (- e)).

(** The [p]-digit decimals on both sides of [m * 2^e], and of those that
    read back as [m * 2^e] the one nearer to it: an integer [c] and an
    exponent [k], standing for [c * 10^k]. *)
Definition candidate (m : positive) (e : Z) (p : Z) : option (Z * Z) :=
  let '(N, D) := to_ratio m e in
  let k := decimal_order N D - p in
  let '(n, d) := scale10 N D k in
  let q := n / d in
  let r := n mod d in
  let back c := match of_decimal false c k with
                | S754_finite _ m' e' => Pos.eqb m' m && Z.eqb e' e
                | _ => false
                end in
  let lo := back q in
  let hi := negb (r =? 0) && back (q + 1) in
  if lo && hi then Some (if 2 * r <=? d then q else q + 1, k)
  else if lo then Some (q, k)
  else if hi then Some (q + 1, k)
  else None.

(** The shortest, trying 1 to 17 digits. *)
Fixpoint shortest (fuel : nat) (m : positive) (e : Z) (p : Z) : Z * Z :=
  match fuel with
  | O => let '(N, D) := to_ratio m e in
         let k := decimal_order N D - 17 in
         let '(n, d) := scale10 N D k in (n / d, k)
  | S fuel' =>
      match candidate m e p with
      | Some ck => ck
      | None => shortest fuel' m e (p + 1)
      end
  end.

Fixpoint drop_zeros (fuel : nat) (c : Z) : Z :=
  match fuel with
  | O => c
  | S fuel' => if c mod 10 =? 0 then drop_zeros fuel' (c / 10) else c
  end.

Definition decimal_string (n : Z) : string :=
  NilZero.string_of_uint (N.to_uint (Z.to_N n)).

(** [_Py_dg_dtoa(x, 0, ...)] for a positive finite [x]: the digits without
    trailing zeros and [decpt], with [x = 0.digits * 10^decpt]. *)
Definition dtoa (m : positive) (e : Z) : string * Z :=
  let '(c, k) := shortest 17 m e 1 in
  (decimal_string (drop_zeros 20 c), num_digits c + k).

Fixpoint zeros (n : nat) : string :=
  match n with
  | O => EmptyString
  | S n' => String "0" (zeros n')
  end.

(** [sprintf("%+.02d", exp)]. *)
Definition format_exp (exp : Z) : string :=
  let a := decimal_string (Z.abs exp) in
  (if exp <? 0 then "-" else "+")
  +:+ (if Z.abs exp <? 10 then "0" +:+ a else a).

(** [format_float_short] for the code ['r']: exponent form when
    [decpt <= -4] or [decpt > 16], otherwise positional with [.0] added
    to a whole number. *)
Definition format_float_short (digits : string) (decpt : Z) : string :=
  let len := Z.of_nat (String.length digits) in
  if (decpt <=? -4) || (16 <? decpt) then
    (match digits with
     | String d EmptyString => String d EmptyString
     | String d rest => String d ("." +:+ rest)
     | EmptyString => EmptyString
     end) +:+ "e" +:+ format_exp (decpt - 1)
  else if decpt <=? 0 then
    "0." +:+ zeros (Z.to_nat (- decpt)) +:+ digits
  else if decpt <? len then
    substring 0 (Z.to_nat decpt) digits +:+ "."
    +:+ substring (Z.to_nat decpt) (Z.to_nat (len - decpt)) digits
  else
    digits +:+ zeros (Z.to_nat (decpt - len)) +:+ ".0".

Definition sign_string (neg : bool) : string :=
  if neg then "-" else "".

(** [str(x)] for a float [x]. *)
Definition str (x : spec_float) : string :=
  match x with
  | S754_nan => "nan"
  | S754_infinity neg => sign_string neg +:+ "inf"
  | S754_zero neg => sign_string neg +:+ "0.0"
  | S754_finite neg m e =>
      let '(digits, decpt) := dtoa m e in
      sign_string neg +:+ format_float_short digits decpt
  end.

End PyFloat.

(** ** Paths: posixpath and pathlib on a POSIX system *)

Module Paths.

Definition sep : ascii := "/"%char.

(** The part of [s] after its last [c] and, when there is a [c], the part
    before it. *)
Fixpoint rsplit (c : ascii) (s : string) : option string * string :=
  match s with
  | EmptyString => (None, EmptyString)
  | String a s' =>
      match rsplit c s' with
      | (Some h, t) => (Some (String a h), t)
      | (None, t) =>
          if Ascii.eqb a c then (Some EmptyString, t) else (None, String a t)
      end
  end.

(** Does [c] occur in [s]? *)
Fixpoint has_char (c : ascii) (s : string) : bool :=
  match s with
  | EmptyString => false
  | String a s' => Ascii.eqb a c || has_char c s'
  end.

(** [s.rstrip(c)]. *)
Fixpoint rstrip (c : ascii) (s : string) : string :=
  match s with
  | EmptyString => EmptyString
  | String a s' =>
      match rstrip c s' with
      | EmptyString => if Ascii.eqb a c then EmptyString else String a EmptyString
      | t => String a t
      end
  end.

(** [posixpath.dirname]:
<<
    i = p.rfind(sep) + 1
    head = p[:i]
    if head and head != sep*len(head):
        head = head.rstrip(sep)
    return head
>> *)
Definition dirname (p : string) : string :=
  match rsplit sep p with
  | (None, _) => EmptyString
  | (Some h, _) =>
      let head := h +:+ String sep EmptyString in
      match rstrip sep head with
      | EmptyString => head
      | stripped => stripped
      end
  end.

Definition startswith (c : ascii) (s : string) : bool :=
  match s with
  | String a _ => Ascii.eqb a c
  | EmptyString => false
  end.

Fixpoint endswith (c : ascii) (s : string) : bool :=
  match s with
  | EmptyString => false
  | String a EmptyString => Ascii.eqb a c
  | String _ s' => endswith c s'
  end.

(** [posixpath.join(a, b)]:
<<
    if b.startswith(sep): path = b
    elif not path or path.endswith(sep): path += b
    else: path += sep + b
>> *)
Definition join (a b : string) : string :=
  if startswith sep b then b
  else if String.eqb a EmptyString || endswith sep a then a +:+ b
  else a +:+ String sep b.

(** [p.split(sep)]. *)
Fixpoint split (c : ascii) (s : string) : list string :=
  match s with
  | EmptyString => [EmptyString]
  | String a s' =>
      if Ascii.eqb a c then EmptyString :: split c s'
      else match split c s' with
           | w :: ws => String a w :: ws
           | [] => [String a EmptyString]
           end
  end.

(** [PurePosixPath(p).name]: the last component of the path that is
    neither empty nor a single dot, or the empty string. *)
Definition name (p : string) : string :=
  List.last
    (List.filter (fun x => negb (String.eqb x "" || String.eqb x "."))
                 (split sep p))
    EmptyString.

(** [PurePath.stem], as pathlib has it up to Python 3.13:
<<
    name = self.name
    i = name.rfind('.')
    if 0 < i < len(name) - 1: return name[:i]
    else: return name
>> *)
Definition stem (p : string) : string :=
  let nm := name p in
  match rsplit "."%char nm with
  | (Some h, t) =>
      if String.eqb h "" || String.eqb t "" then nm else h
  | (None, _) => nm
  end.

End Paths.

(** ** csv.writer with the excel dialect *)

Module Csv.

Definition delimiter : ascii := ","%char.
Definition quotechar : ascii := "034"%char.
Definition CR : ascii := "013"%char.
Definition LF : ascii := "010"%char.
Definition lineterminator : string := String CR (String LF EmptyString).

(** The characters that make [join_append_data] quote a field under
    [QUOTE_MINIMAL]: the delimiter, the quote character and the characters
    of the line terminator. *)
Definition special (c : ascii) : bool :=
  Ascii.eqb c delimiter || Ascii.eqb c quotechar
  || Ascii.eqb c CR || Ascii.eqb c LF.

Fixpoint has_special (s : string) : bool :=
  match s with
  | EmptyString => false
  | String c s' => special c || has_special s'
  end.

(** [doublequote]: a quote character inside a field is written twice. *)
Fixpoint double_quotes (s : string) : string :=
  match s with
  | EmptyString => EmptyString
  | String c s' =>
      if Ascii.eqb c quotechar
      then String quotechar (String quotechar (double_quotes s'))
      else String c (double_quotes s')
  end.

(** [join_append]: one field as it is written. *)
Definition write_field (f : string) : string :=
  if has_special f
  then String quotechar (double_quotes f +:+ String quotechar EmptyString)
  else f.

Fixpoint join_fields (fs : list string) : string :=
  match fs with
  | [] => EmptyString
  | [f] => write_field f
  | f :: fs' => write_field f +:+ String delimiter (join_fields fs')
  end.

(** [writer.writerow]: the fields joined by the delimiter, then the line
    terminator.  A record that is one empty field is written as a pair of
    quote characters. *)
Definition writerow (fs : list string) : string :=
  match fs with
  | [EmptyString] =>
      String quotechar (String quotechar EmptyString) +:+ lineterminator
  | _ => join_fields fs +:+ lineterminator
  end.

(** *** csv.reader with the excel dialect

    The source only writes the file.  To state what reading it back
    gives, this is the reader of the same module and dialect: the state
    machine of [parse_process_char], fed the characters of each line and
    then an end-of-line mark, a line being what a file opened with
    [newline=''] yields (it ends after LF, after CR LF, or after a CR that
    no LF follows).  The dialect has no escape character and is not
    strict; the field size limit is not modelled. *)

Inductive ParserState : Type :=
| START_RECORD | START_FIELD | IN_FIELD
| IN_QUOTED_FIELD | QUOTE_IN_QUOTED_FIELD | EAT_CRNL.

Record Reader : Type := mkReader {
  state : ParserState;
  field : string;
  fields : list string
}.

Definition parse_reset : Reader := mkReader START_RECORD "" [].

Definition set_state (r : Reader) (st : ParserState) : Reader :=
  mkReader st (field r) (fields r).

Definition parse_save_field (r : Reader) (st : ParserState) : Reader :=
  mkReader st "" (fields r ++ [field r]).

Definition parse_add_char (r : Reader) (c : ascii) (st : ParserState)
  : Reader :=
  mkReader st (field r +:+ String c "") (fields r).

Definition is_newline (c : ascii) : bool :=
  Ascii.eqb c CR || Ascii.eqb c LF.

(** The case [START_FIELD], which [START_RECORD] falls through to. *)
Definition start_field (r : Reader) (c : option ascii) : Reader :=
  match c with
  | None => parse_save_field r START_RECORD
  | Some c =>
      if is_newline c then parse_save_field r EAT_CRNL
      else if Ascii.eqb c quotechar then set_state r IN_QUOTED_FIELD
      else if Ascii.eqb c delimiter then parse_save_field r START_FIELD
      else parse_add_char r c IN_FIELD
  end.

(** [parse_process_char]; [None] as the character is the end-of-line
    mark, [None] as the result is [csv.Error]. *)
Definition parse_process_char (r : Reader) (c : option ascii)
  : option Reader :=
  match state r with
  | START_RECORD =>
      match c with
      | None => Some r
      | Some c' =>
          if is_newline c' then Some (set_state r EAT_CRNL)
          else Some (start_field r c)
      end
  | START_FIELD => Some (start_field r c)
  | IN_FIELD =>
      match c with
      | None => Some (parse_save_field r START_RECORD)
      | Some c =>
          if is_newline c then Some (parse_save_field r EAT_CRNL)
          else if Ascii.eqb c delimiter
               then Some (parse_save_field r START_FIELD)
          else Some (parse_add_char r c IN_FIELD)
      end
  | IN_QUOTED_FIELD =>
      match c with
      | None => Some r
      | Some c =>
          if Ascii.eqb c quotechar
          then Some (set_state r QUOTE_IN_QUOTED_FIELD)
          else Some (parse_add_char r c IN_QUOTED_FIELD)
      end
  | QUOTE_IN_QUOTED_FIELD =>
      match c with
      | None => Some (parse_save_field r START_RECORD)
      | Some c =>
          if Ascii.eqb c quotechar
          then Some (parse_add_char r c IN_QUOTED_FIELD)
          else if Ascii.eqb c delimiter
               then Some (parse_save_field r START_FIELD)
          else if is_newline c then Some (parse_save_field r EAT_CRNL)
          else Some (parse_add_char r c IN_FIELD)
      end
  | EAT_CRNL =>
      match c with
      | None => Some (set_state r START_RECORD)
      | Some c => if is_newline c then Some r else None
      end
  end.

(** Does the line end after the character [c], given what follows? *)
Definition line_ends (c : ascii) (rest : string) : bool :=
  if Ascii.eqb c LF then true
  else if Ascii.eqb c CR then
    match rest with
    | String c' _ => negb (Ascii.eqb c' LF)
    | EmptyString => true
    end
  else false.

Definition is_START_RECORD (st : ParserState) : bool :=
  match st with START_RECORD => true | _ => false end.

Definition is_IN_QUOTED_FIELD (st : ParserState) : bool :=
  match st with IN_QUOTED_FIELD => true | _ => false end.

(** The end of the input ([Reader_iternext] when the lines run out): a
    last line without terminator is closed first; a field under way, or an
    open quoted field, is saved and the record returned. *)
Definition read_end (r : Reader) (pending : bool)
  : option (list (list string)) :=
  match (if pending then parse_process_char r None else Some r) with
  | None => None
  | Some r' =>
      if pending && is_START_RECORD (state r') then Some [fields r']
      else if negb (String.eqb (field r') "")
              || is_IN_QUOTED_FIELD (state r')
           then Some [fields r' ++ [field r']]
      else Some []
  end.

(** The records of the rest of the input [s], from the reader state [r];
    [pending] says that the current line has characters already. *)
Fixpoint read_from (r : Reader) (pending : bool) (s : string)
  : option (list (list string)) :=
  match s with
  | EmptyString => read_end r pending
  | String c s' =>
      match parse_process_char r (Some c) with
      | None => None
      | Some r1 =>
          if line_ends c s' then
            match parse_process_char r1 None with
            | None => None
            | Some r2 =>
                if is_START_RECORD (state r2)
                then cons (fields r2) <$> read_from parse_reset false s'
                else read_from r2 false s'
            end
          else read_from r1 true s'
      end
  end.


End Csv.

(** ** extract_points.py *)

(** The two exceptions that leave [extract_points_from_ggb], each with its
    message. *)
Inductive Exception : Type :=
| FileNotFoundError (msg : string)
| ValueError (msg : string).

(** An entry of [points]: the dictionary with the keys [点名称], [x], [y]. *)
Record PointRecord : Type := mkPoint {
  label : string;
  x : spec_float;
  y : spec_float
}.

(** What the function can see and change: the regular files with their
    bytes, by path, and the lines printed so far.  Directories and
    permissions are left out: a path exists when it names a file, and a
    file can always be written. *)
Record World : Type := mkWorld {
  files : gmap string string;
  stdout : list string
}.

Definition print (line : string) (w : World) : World :=
  mkWorld (files w) (stdout w ++ [line]).

Definition write_file (path data : string) (w : World) : World :=
  mkWorld (<[path := data]> (files w)) (stdout w).

(** The byte order mark that the codec [utf-8-sig] writes first. *)
Definition BOM : string :=
  String "239" (String "187" (String "191" EmptyString)).

Definition fieldnames : list string := ["点名称"; "x"; "y"].

(** [DictWriter._dict_to_list]: the values in the order of [fieldnames];
    [csv.writer] then writes a float as [str] gives it. *)
Definition dict_to_list (p : PointRecord) : list string :=
  [label p; PyFloat.str (x p); PyFloat.str (y p)].

(** The text written to the CSV file: the header, then a row per point. *)
Definition csv_text (points : list PointRecord) : string :=
  BOM +:+ Csv.writerow fieldnames
      +:+ String.concat "" (map (fun p => Csv.writerow (dict_to_list p)) points).

(** The default output path, lines 31 to 36. *)
Definition default_output_path (ggb_file_path : string) : string :=
  let base_name := Paths.stem ggb_file_path in
  Paths.join (Paths.dirname ggb_file_path) (base_name +:+ "_points.csv").

Definition conversion_warning (label x y : string) : string :=
  "警告: 点 '" +:+ label +:+ "' 的坐标无法转换为数字 (x=" +:+ x
  +:+ ", y=" +:+ y +:+ ")".

(** One turn of the loop over [point_elements], lines 54 to 78: a record
    is appended, a warning is printed, or the element is passed over. *)
Inductive outcome : Type :=
| Appended (p : PointRecord)
| Warned (line : string)
| Skipped.

Definition visit (point_element : ET.Element) : outcome :=
  let label := ET.get point_element "label" "" in
  match ET.find point_element "coords" with
  | Some coords =>
      let x := ET.get coords "x" "" in
      let y := ET.get coords "y" "" in
      if negb (String.eqb x "") && negb (String.eqb y "") then
        match PyFloat.float x with
        | Some x_float =>
            match PyFloat.float y with
            | Some y_float => Appended (mkPoint label x_float y_float)
            | None => Warned (conversion_warning label x y)
            end
        | None => Warned (conversion_warning label x y)
        end
      else Skipped
  | None => Skipped
  end.

(** The loop state: [points] and the lines printed inside the loop. *)
Definition loop_body (st : list PointRecord * list string)
  (point_element : ET.Element) : list PointRecord * list string :=
  match visit point_element with
  | Appended p => (st.1 ++ [p], st.2)
  | Warned line => (st.1, st.2 ++ [line])
  | Skipped => st
  end.

Definition loop (point_elements : list ET.Element)
  : list PointRecord * list string :=
  fold_left loop_body point_elements ([], []).

Section Extract.

(** [zipfile.ZipFile] on the bytes of a file: the members by name, or
    [None] for [BadZipFile]. *)
Variable ZipFile : string -> option (gmap string string).

(** [ET.fromstring]: the root element, or the message of [ParseError]. *)
Variable fromstring : string -> string + ET.Element.

Definition extract_points_from_ggb (ggb_file_path : string)
  (output_csv_path : option string) (w : World)
  : World * (Exception + list PointRecord) :=
  match files w !! ggb_file_path with
  | None => (w, inl (FileNotFoundError ("文件不存在: " +:+ ggb_file_path)))
  | Some data =>
      let output_csv_path :=
        match output_csv_path with
        | None => default_output_path ggb_file_path
        | Some p => p
        end in
      match ZipFile data with
      | None =>
          (w, inl (ValueError ("文件不是有效的ZIP文件: " +:+ ggb_file_path)))
      | Some zip_ref =>
          match zip_ref !! "geogebra.xml" with
          | None => (w, inl (ValueError "ZIP文件中找不到geogebra.xml文件"))
          | Some xml_content =>
              match fromstring xml_content with
              | inl e => (w, inl (ValueError ("XML解析错误: " +:+ e)))
              | inr root =>
                  let point_elements := ET.findall_points root in
                  let '(points, warnings) := loop point_elements in
                  let w1 := mkWorld (files w) (stdout w ++ warnings) in
                  match points with
                  | _ :: _ =>
                      let w2 := write_file output_csv_path
                                           (csv_text points) w1 in
                      (print ("成功提取 "
                              +:+ PyFloat.decimal_string
                                    (Z.of_nat (length points))
                              +:+ " 个点，已保存到: " +:+ output_csv_path) w2,
                       inr points)
                  | [] => (print "警告: 未找到任何点" w1, inr points)
                  end
              end
          end
      end
  end.

End Extract.

(** ** Notions used to state the properties *)

(** A file name: no separator in it, not empty and not a single dot. *)
Definition component (nm : string) : Prop :=
  Paths.has_char Paths.sep nm = false /\ nm <> "" /\ nm <> ".".

(** The path of the output file: the one given, or the default one. *)
Definition destination (ggb_file_path : string)
  (output_csv_path : option string) : string :=
  default (default_output_path ggb_file_path) output_csv_path.

(** A point element: tag [element], attribute [type] equal to [point]. *)
Definition is_point_element (e : ET.Element) : Prop :=
  ET.tag e = "element" /\ ET.get_opt e "type" = Some "point".

(** Every point element of the document, the root included, in document
    order. *)
Definition document_points (root : ET.Element) : list ET.Element :=
  map snd
    (filter (fun n : ET.node =>
               ET.get_opt n.2 "type" = Some "point")
            (ET.iter_from (Some "element") [] root)).

(** The element [e] has a [coords] child, the first of them carries
    non-empty [x] and [y] that [float] accepts, and [p] is the record made
    of the label and the two numbers. *)
Definition well_specified (e : ET.Element) (p : PointRecord) : Prop :=
  exists c,
    ET.find e "coords" = Some c
    /\ ET.get c "x" "" <> "" /\ ET.get c "y" "" <> ""
    /\ PyFloat.float (ET.get c "x" "") = Some (x p)
    /\ PyFloat.float (ET.get c "y" "") = Some (y p)
    /\ label p = ET.get e "label" "".

(** The records and the warnings of the loop, read off [visit]. *)
Definition appended (e : ET.Element) : option PointRecord :=
  match visit e with Appended p => Some p | _ => None end.

Definition warned (e : ET.Element) : option string :=
  match visit e with Warned line => Some line | _ => None end.








(** ** Sample documents *)

Module Sample.

(** [<coords x="..." y="..."/>] *)
Definition coords (x y : string) : ET.Element :=
  ET.Elem "coords" (<["x" := x]> {["y" := y]}) [].

(** [<element type="point" label="..."><coords .../></element>] *)
Definition point (label x y : string) : ET.Element :=
  ET.Elem "element" (<["type" := "point"]> {["label" := label]})
          [coords x y].

(** A document whose root is itself a point element. *)
Definition root_point : ET.Element := point "A" "1" "2".

(** The two points of the scenario, under [geogebra/construction]. *)
Definition two_points : ET.Element :=
  ET.Elem "geogebra" ∅
    [ET.Elem "construction" ∅
       [point "A" "1.5" "-2.0"; point "B" "0" "0"]].

(** A point without [coords], one with an empty [y], one with an [x]
    that is no number, and one with an infinite [x]. *)
Definition mixed : ET.Element :=
  ET.Elem "geogebra" ∅
    [ET.Elem "element" (<["type" := "point"]> {["label" := "P"]}) [];
     point "Q" "3" "";
     point "R" "abc" "1";
     point "S" "inf" "1"].

(** [<element type="point" label="P"/>], a point without [coords]. *)
Definition no_coords : ET.Element :=
  ET.Elem "element" (<["type" := "point"]> {["label" := "P"]}) [].

(** A point with two [coords] children. *)
Definition twice (later : list ET.Element) : ET.Element :=
  ET.Elem "element" (<["type" := "point"]> {["label" := "T"]})
          (ET.Elem "show" ∅ [] :: coords "1" "2" :: later).

(** An archive is a file that starts with [PK]; its only member is
    [geogebra.xml]. *)
Definition ZipFile (data : string) : option (gmap string string) :=
  if String.prefix "PK" data
  then Some {["geogebra.xml" := data]} else None.

(** A parser that yields [root] for every input, and one that rejects
    every input. *)
Definition fromstring (root : ET.Element) (xml : string)
  : string + ET.Element := inr root.

Definition fromstring_error (xml : string) : string + ET.Element :=
  inl "syntax error: line 1, column 0".

Definition world : World :=
  mkWorld (<["dir/fig.ggb" := "PK..."]> {["notes.txt" := "hello"]}) [].

End Sample.

(** The last line [extract_points_from_ggb] prints, lines 97 and 99. *)
Definition summary_line (points : list PointRecord) (output_csv_path : string)
  : string :=
  match points with
  | [] => "警告: 未找到任何点"
  | _ => "成功提取 " +:+ PyFloat.decimal_string (Z.of_nat (length points))
         +:+ " 个点，已保存到: " +:+ output_csv_path
  end.

(** ** The command line: main *)

(** [str(e)] for the two exceptions: the message they were raised with. *)
Definition Exception_str (e : Exception) : string :=
  match e with
  | FileNotFoundError msg => msg
  | ValueError msg => msg
  end.

Definition usage : list string :=
  ["使用方法: python extract_points.py <ggb文件路径> [输出CSV文件路径]";
   "示例: python extract_points.py calculus🌟.ggb";
   "示例: python extract_points.py calculus🌟.ggb output.csv"].

(** The line printed for a point, line 119. *)
Definition point_line (point : PointRecord) : string :=
  "  " +:+ label point +:+ ": (" +:+ PyFloat.str (x point) +:+ ", "
  +:+ PyFloat.str (y point) +:+ ")".

(** The line that counts the points not shown, line 121. *)
Definition remaining_line (n : nat) : string :=
  "  ... 还有 " +:+ PyFloat.decimal_string (Z.of_nat n) +:+ " 个点".

Definition listing_header : string := String "010" "提取的点列表:".

(** The lines [main] prints once the points are there, lines 117 to 121:
    the header, the first ten points, and the count of the others when
    there are more than ten. *)
Definition listing (points : list PointRecord) : list string :=
  listing_header
  :: map point_line (take 10 points)
  ++ (if Nat.ltb 10 (length points)
      then [remaining_line (length points - 10)] else []).

Section Main.

Variable ZipFile : string -> option (gmap string string).
Variable fromstring : string -> string + ET.Element.

(** [main], lines 104 to 124.  [argv] is [sys.argv], the script name
    first.  The result is the world, the lines written to [sys.stderr]
    and the exit status: 1 after [sys.exit(1)], 0 when [main] returns. *)
Definition main (argv : list string) (w : World)
  : World * list string * nat :=
  match argv with
  | [] | [_] =>
      (mkWorld (files w) (stdout w ++ usage), [], 1%nat)
  | _ :: ggb_file :: rest =>
      let output_file :=
        match rest with
        | [] => None
        | o :: _ => Some o
        end in
      match extract_points_from_ggb ZipFile fromstring ggb_file output_file w
      with
      | (w1, inr points) =>
          (mkWorld (files w1) (stdout w1 ++ listing points), [], 0%nat)
      | (w1, inl e) => (w1, ["错误: " +:+ Exception_str e], 1%nat)
      end
  end.

End Main.

(** * Properties *)

(** ** Strings *)

Section Strings.



Lemma string_app_cons (c : ascii) (s t : string) :
  String c s +:+ t = String c (s +:+ t).
Proof. done. Qed.

Lemma string_app_nil_l (s : string) : "" +:+ s = s.
Proof. done. Qed.

End Strings.

(** ** The element tree *)

Section ElementTree.
Import ET.

(** Structural induction over the tree, children included. *)
Lemma Element_ind' (P : Element -> Prop) :
  (forall t a cs, Forall P cs -> P (Elem t a cs)) ->
  forall e, P e.
Proof.
  intros step. fix IH 1. intros [t a cs]. apply step.
  induction cs as [|c cs IHcs]; constructor; [apply IH | exact IHcs].
Qed.

Lemma iter_from_unfold tg pos e :
  iter_from tg pos e =
    (match tg with
     | None => [(pos, e)]
     | Some t' => if String.eqb (tag e) t' then [(pos, e)] else []
     end) ++ iter_children tg pos 0 (children e).
Proof.
  destruct e as [t a cs]. simpl. f_equal.
  generalize 0. induction cs as [|c cs IH]; intros i; simpl; [done|].
  by rewrite IH.
Qed.

Lemma elem_of_iter_self tg pos e :
  tag_matches tg e -> (pos, e) ∈ iter_from tg pos e.
Proof.
  intros Hm. rewrite iter_from_unfold. apply elem_of_app. left.
  destruct tg as [t'|]; simpl in *.
  - subst t'. rewrite String.eqb_refl. apply list_elem_of_here.
  - apply list_elem_of_here.
Qed.

Lemma elem_of_iter_children tg pos i cs n :
  n ∈ iter_children tg pos i cs <->
  exists j c, cs !! j = Some c /\ n ∈ iter_from tg (pos ++ [i + j]%nat) c.
Proof.
  revert i. induction cs as [|c cs IH]; intros i; simpl.
  - split; [intros H; inversion H | intros (j & c & H & _); done].
  - rewrite elem_of_app, IH. split.
    + intros [H | (j & c' & Hj & H)].
      * exists 0%nat, c. by rewrite Nat.add_0_r.
      * exists (S j), c'. split; [done|].
        by replace (i + S j)%nat with (S i + j)%nat by lia.
    + intros ([|j] & c' & Hj & H); simpl in Hj.
      * injection Hj as <-. left. by rewrite Nat.add_0_r in H.
      * right. exists j, c'. split; [done|].
        by replace (S i + j)%nat with (i + S j)%nat by lia.
Qed.

(** [iter] yields exactly the nodes of the subtree with a matching tag,
    each at its own position. *)
Lemma elem_of_iter_from tg e : forall pos p e',
  (p, e') ∈ iter_from tg pos e <->
  exists q, p = pos ++ q /\ subtree_at e q = Some e' /\ tag_matches tg e'.
Proof.
  induction e as [t a cs IH] using Element_ind'. intros pos p e'.
  rewrite iter_from_unfold, elem_of_app, elem_of_iter_children. simpl.
  split.
  - intros [Hself | (j & c & Hj & Hin)].
    + assert ((p, e') = (pos, Elem t a cs) /\ tag_matches tg (Elem t a cs))
        as [[= -> ->] Hm].
      { destruct tg as [t'|]; simpl.
        - destruct (String.eqb_spec t t') as [->|];
            [|by apply elem_of_nil in Hself].
          by apply list_elem_of_singleton in Hself.
        - by apply list_elem_of_singleton in Hself. }
      exists []. by rewrite app_nil_r.
    + rewrite Forall_forall in IH.
      apply IH in Hin as (q & -> & Hq & Hm);
        [|by eapply list_elem_of_lookup_2].
      exists (j :: q). simpl. rewrite Hj, <- app_assoc. done.
  - intros ([|j q] & -> & Hq & Hm); simpl in Hq.
    + injection Hq as <-. left. rewrite app_nil_r.
      pose proof (elem_of_iter_self tg pos (Elem t a cs) Hm) as H.
      rewrite iter_from_unfold in H. simpl in H.
      apply elem_of_app in H as [H | H]; [done|].
      apply elem_of_iter_children in H as (j & c & Hj & H).
      rewrite Forall_forall in IH.
      apply IH in H as (q & Hp & _); [|by eapply list_elem_of_lookup_2].
      apply (f_equal length) in Hp. rewrite !length_app in Hp.
      simpl in Hp. lia.
    + right. destruct (cs !! j) as [c|] eqn:Hj; [|done].
      exists j, c. split; [done|].
      rewrite Forall_forall in IH. apply IH; [by eapply list_elem_of_lookup_2|].
      exists q. by rewrite <- app_assoc.
Qed.

(** The nodes that [findall(".//element[@type='point']")] returns: the
    proper descendants of the root with tag [element] and [type] equal
    to [point]. *)
Lemma elem_of_findall_point_nodes root p e :
  (p, e) ∈ findall_point_nodes root <->
  p <> [] /\ subtree_at root p = Some e /\ tag e = "element"
  /\ get_opt e "type" = Some "point".
Proof.
  unfold findall_point_nodes, select_attrib_eq, select_descendant,
    select_self.
  simpl. rewrite app_nil_r, !list_elem_of_filter, elem_of_iter_from.
  simpl. split.
  - intros (Hty & Hne & q & -> & Hq & Htg). done.
  - intros (Hne & Hq & Htg & Hty). split_and!; [done..|].
    by exists p.
Qed.

Lemma doc_before_app pos p q :
  doc_before (pos ++ p) (pos ++ q) <-> doc_before p q.
Proof.
  induction pos as [|i pos IH]; simpl; [done|].
  rewrite IH. split; [intros [?|[_ ?]]; [lia|done] | by right].
Qed.

Lemma iter_children_sorted tg pos i cs :
  Forall (fun c => forall pos, StronglySorted node_before (iter_from tg pos c))
         cs ->
  StronglySorted node_before (iter_children tg pos i cs).
Proof.
  intros Hcs. revert i.
  induction Hcs as [|c cs Hc _ IH]; intros i; simpl; [constructor|].
  apply StronglySorted_app. split_and!; [|apply Hc|apply IH].
  intros [p1 e1] [p2 e2] H1 H2.
  apply elem_of_iter_from in H1 as (q1 & -> & _).
  apply elem_of_iter_children in H2 as (j & c' & _ & H2).
  apply elem_of_iter_from in H2 as (q2 & -> & _).
  unfold node_before. simpl. rewrite <- !app_assoc, doc_before_app.
  simpl. left. lia.
Qed.

(** [iter] yields the nodes in document order. *)
Lemma iter_from_sorted tg e : forall pos,
  StronglySorted node_before (iter_from tg pos e).
Proof.
  induction e as [t a cs IH] using Element_ind'. intros pos.
  rewrite iter_from_unfold. apply StronglySorted_app. split_and!.
  - intros [p1 e1] [p2 e2] H1 H2.
    assert (p1 = pos) as ->.
    { destruct tg as [t'|]; simpl in H1;
        [destruct (String.eqb t t'); [|by apply elem_of_nil in H1]|];
        apply list_elem_of_singleton in H1; congruence. }
    apply elem_of_iter_children in H2 as (j & c' & _ & H2).
    apply elem_of_iter_from in H2 as (q2 & -> & _).
    unfold node_before. simpl. rewrite <- app_assoc.
    rewrite <- (app_nil_r pos) at 1. by rewrite doc_before_app.
  - destruct tg as [t'|]; simpl; [destruct (String.eqb t t')|];
      repeat constructor.
  - by apply iter_children_sorted.
Qed.

Lemma filter_sorted {A} (R : A -> A -> Prop) (P : A -> Prop)
  `{forall x, Decision (P x)} (l : list A) :
  StronglySorted R l -> StronglySorted R (filter P l).
Proof.
  induction 1 as [|a l _ IH Hall]; [constructor|].
  rewrite filter_cons. case_decide; [|done].
  constructor; [done|]. rewrite Forall_forall in *.
  intros y [_ Hy]%list_elem_of_filter. by apply Hall.
Qed.

(** The selected nodes are in document order. *)
Lemma findall_point_nodes_sorted root :
  StronglySorted node_before (findall_point_nodes root).
Proof.
  unfold findall_point_nodes, select_attrib_eq, select_descendant,
    select_self.
  simpl. rewrite app_nil_r. do 2 apply filter_sorted.
  apply iter_from_sorted.
Qed.

End ElementTree.

(** ** The loop over the point elements *)

Section Loop.

Lemma fold_loop_body l : forall st,
  fold_left loop_body l st = (st.1 ++ omap appended l, st.2 ++ omap warned l).
Proof.
  induction l as [|e l IH]; intros [ps ws]; simpl.
  - by rewrite !app_nil_r.
  - rewrite IH. unfold loop_body, appended, warned.
    destruct (visit e); simpl; by rewrite <- ?app_assoc.
Qed.

(** The loop appends the records and prints the warnings of the elements
    one by one, in their order. *)
Lemma loop_spec l : loop l = (omap appended l, omap warned l).
Proof. unfold loop. by rewrite fold_loop_body. Qed.

Lemma loop_skip l1 e l2 :
  visit e = Skipped -> loop (l1 ++ e :: l2) = loop (l1 ++ l2).
Proof.
  intros He. rewrite !loop_spec, !omap_app. simpl.
  unfold appended, warned. by rewrite He.
Qed.

Lemma visit_appended e p :
  visit e = Appended p <-> well_specified e p.
Proof.
  unfold visit, well_specified. split.
  - destruct (ET.find e "coords") as [c|]; [|done].
    destruct (String.eqb_spec (ET.get c "x" "") "") as [|Hx]; [done|].
    destruct (String.eqb_spec (ET.get c "y" "") "") as [|Hy]; [done|].
    simpl.
    destruct (PyFloat.float (ET.get c "x" "")) as [xf|] eqn:Hxf; [|done].
    destruct (PyFloat.float (ET.get c "y" "")) as [yf|] eqn:Hyf; [|done].
    intros [= <-]. exists c. by split_and!.
  - intros (c & -> & Hx & Hy & -> & -> & Hl).
    destruct (String.eqb_spec (ET.get c "x" "") ""); [done|].
    destruct (String.eqb_spec (ET.get c "y" "") ""); [done|].
    simpl. destruct p. simpl in *. by subst.
Qed.

Lemma omap_appended_all l :
  Forall (fun e => exists p, well_specified e p) l ->
  Forall2 well_specified l (omap appended l).
Proof.
  induction 1 as [|e l [p Hp] _ IH]; simpl; [constructor|].
  unfold appended at 1. apply visit_appended in Hp as Hv. rewrite Hv.
  by constructor.
Qed.

Lemma select_child_nodes tg (g : nat -> ET.position) l :
  map snd (filter (fun n : ET.node => ET.tag n.2 = tg)
                  (imap (fun i c => (g i, c)) l))
  = filter (fun d => ET.tag d = tg) l.
Proof.
  revert g. induction l as [|d l IH]; intros g; simpl; [done|].
  rewrite !filter_cons. simpl.
  case_decide; simpl; [f_equal|]; apply (IH (g ∘ S)).
Qed.

(** [find] returns the first child with the tag. *)
Lemma find_head e tg :
  ET.find e tg = head (filter (fun d => ET.tag d = tg) (ET.children e)).
Proof.
  unfold ET.find, ET.select_child. simpl. rewrite app_nil_r.
  by rewrite (select_child_nodes tg (fun i => [] ++ [i])).
Qed.

Lemma find_first t a pre c post tg :
  Forall (fun d => ET.tag d <> tg) pre -> ET.tag c = tg ->
  ET.find (ET.Elem t a (pre ++ c :: post)) tg = Some c.
Proof.
  intros Hpre Hc. rewrite find_head. simpl.
  induction Hpre as [|d pre Hd _ IH]; simpl.
  - rewrite filter_cons. by rewrite decide_True.
  - rewrite filter_cons. by rewrite decide_False.
Qed.

Lemma find_none e tg :
  ET.find e tg = None <-> Forall (fun d => ET.tag d <> tg) (ET.children e).
Proof.
  rewrite find_head.
  induction (ET.children e) as [|d l IH]; simpl.
  - split; [constructor|done].
  - rewrite filter_cons. case_decide as Hd; simpl.
    + split; [done|]. by intros [? _]%Forall_cons.
    + rewrite IH. split; [by constructor|by intros [_ ?]%Forall_cons].
Qed.

End Loop.

(** ** The function as a whole *)

Section Run.
Variable ZipFile : string -> option (gmap string string).
Variable fromstring : string -> string + ET.Element.

(** Once the archive is read and parsed, the function returns the
    records of the selected elements, and writes the file when there is
    a record. *)
Lemma extract_ok path out w data zip xml root :
  files w !! path = Some data ->
  ZipFile data = Some zip ->
  zip !! "geogebra.xml" = Some xml ->
  fromstring xml = inr root ->
  let points := omap appended (ET.findall_points root) in
  let r := extract_points_from_ggb ZipFile fromstring path out w in
  r.2 = inr points
  /\ files r.1 = match points with
                 | [] => files w
                 | _ => <[destination path out := csv_text points]> (files w)
                 end.
Proof.
  intros Hf Hz Hm Hx. simpl. unfold extract_points_from_ggb.
  rewrite Hf, Hz, Hm, Hx, loop_spec.
  destruct (omap appended (ET.findall_points root)); simpl; [done|].
  split; [done|]. by destruct out.
Qed.

(** The value returned is the list of records the loop ends with. *)
Lemma extract_returns_loop path out w data zip xml root :
  files w !! path = Some data ->
  ZipFile data = Some zip ->
  zip !! "geogebra.xml" = Some xml ->
  fromstring xml = inr root ->
  (extract_points_from_ggb ZipFile fromstring path out w).2
  = inr (loop (ET.findall_points root)).1.
Proof.
  intros Hf Hz Hm Hx.
  destruct (extract_ok path out w data zip xml root) as [Hr _]; [done..|].
  by rewrite loop_spec.
Qed.

(** Every return value comes from a parsed archive. *)
Lemma extract_inr path out w w' points :
  extract_points_from_ggb ZipFile fromstring path out w = (w', inr points) ->
  exists data zip xml root,
    files w !! path = Some data /\ ZipFile data = Some zip
    /\ zip !! "geogebra.xml" = Some xml /\ fromstring xml = inr root.
Proof.
  unfold extract_points_from_ggb.
  destruct (files w !! path) as [data|] eqn:Hf; [|done].
  destruct (ZipFile data) as [zip|] eqn:Hz; [|done].
  destruct (zip !! "geogebra.xml") as [xml|] eqn:Hm; [|done].
  destruct (fromstring xml) as [msg|root] eqn:Hx; [done|].
  intros _. by exists data, zip, xml, root.
Qed.

End Run.

(** ** Paths *)

Section PathLemmas.
Import Paths.

Lemma rsplit_none c s :
  has_char c s = false -> rsplit c s = (None, s).
Proof.
  induction s as [|a s IH]; simpl; [done|].
  intros [Ha Hs]%orb_false_elim. by rewrite (IH Hs), Ha.
Qed.

Lemma rsplit_last c h t :
  has_char c t = false -> rsplit c (h +:+ String c t) = (Some h, t).
Proof.
  intros Ht. induction h as [|a h IH].
  - rewrite string_app_nil_l. simpl.
    by rewrite (rsplit_none _ _ Ht), Ascii.eqb_refl.
  - rewrite string_app_cons. simpl. by rewrite IH.
Qed.

Lemma rstrip_snoc c d :
  rstrip c (d +:+ String c "") = rstrip c d.
Proof.
  induction d as [|a d IH].
  - rewrite string_app_nil_l. simpl. by rewrite Ascii.eqb_refl.
  - rewrite string_app_cons. simpl. by rewrite IH.
Qed.

Lemma rstrip_id c d :
  endswith c d = false -> d <> "" -> rstrip c d = d.
Proof.
  induction d as [|a d IH]; [done|]. intros He _.
  destruct d as [|b d].
  - simpl in *. by rewrite He.
  - change (endswith c (String a (String b d)))
      with (endswith c (String b d)) in He.
    change (rstrip c (String a (String b d)))
      with (match rstrip c (String b d) with
            | "" => if Ascii.eqb a c then "" else String a ""
            | t => String a t
            end).
    by rewrite IH.
Qed.

Lemma dirname_file dir nm :
  has_char sep nm = false -> endswith sep dir = false ->
  dirname (dir +:+ String sep nm)
  = if String.eqb dir "" then String sep "" else dir.
Proof.
  intros Hnm Hdir. unfold dirname. rewrite (rsplit_last _ _ _ Hnm).
  rewrite rstrip_snoc. destruct dir as [|a dir]; [done|].
  by rewrite rstrip_id.
Qed.

Lemma dirname_bare nm : has_char sep nm = false -> dirname nm = "".
Proof. intros Hnm. unfold dirname. by rewrite (rsplit_none _ _ Hnm). Qed.

Lemma split_none c s : has_char c s = false -> split c s = [s].
Proof.
  induction s as [|a s IH]; simpl; [done|].
  intros [Ha Hs]%orb_false_elim. by rewrite Ha, (IH Hs).
Qed.

Lemma split_nonempty c s : split c s <> [].
Proof.
  destruct s as [|a s]; simpl; [done|].
  destruct (Ascii.eqb a c); [done|]. by destruct (split c s).
Qed.

Lemma split_app c h t :
  split c (h +:+ String c t) = split c h ++ split c t.
Proof.
  induction h as [|a h IH].
  - rewrite string_app_nil_l. simpl. by rewrite Ascii.eqb_refl.
  - rewrite string_app_cons. simpl. rewrite IH.
    destruct (Ascii.eqb a c); [done|].
    pose proof (split_nonempty c h). by destruct (split c h).
Qed.

Lemma name_file dir nm : component nm -> name (dir +:+ String sep nm) = nm.
Proof.
  intros (Hs & He & Hd). unfold name.
  rewrite split_app, (split_none _ _ Hs), List.filter_app. simpl.
  destruct (String.eqb_spec nm ""); [done|].
  destruct (String.eqb_spec nm "."); [done|].
  simpl. apply List.last_last.
Qed.

Lemma name_bare nm : component nm -> name nm = nm.
Proof.
  intros (Hs & He & Hd). unfold name. rewrite (split_none _ _ Hs). simpl.
  destruct (String.eqb_spec nm ""); [done|].
  by destruct (String.eqb_spec nm ".").
Qed.

Lemma Paths_has_char_app c s t :
  has_char c (s +:+ t) = has_char c s || has_char c t.
Proof.
  induction s as [|a s IH]; [done|].
  rewrite string_app_cons. simpl. by rewrite IH, orb_assoc.
Qed.

Lemma stem_of_name p base ext :
  name p = base +:+ String "." ext ->
  has_char "." ext = false -> base <> "" -> ext <> "" ->
  stem p = base.
Proof.
  intros Hn Hext Hb He. unfold stem. rewrite Hn, (rsplit_last _ _ _ Hext).
  destruct (String.eqb_spec base ""); [done|].
  by destruct (String.eqb_spec ext "").
Qed.

Lemma stem_no_dot p :
  has_char "." (name p) = false -> stem p = name p.
Proof. intros H. unfold stem. by rewrite (rsplit_none _ _ H). Qed.

Lemma join_file a b :
  startswith sep b = false -> a <> "" -> endswith sep a = false ->
  join a b = a +:+ String sep b.
Proof.
  intros Hb Ha He. unfold join. rewrite Hb, He.
  by destruct (String.eqb_spec a "").
Qed.

End PathLemmas.

(** ** The text of the CSV file *)

Section CsvText.



End CsvText.

(** ** Reading back what csv.writer wrote *)

Section CsvRoundTrip.
Import Csv.



(** The end of a record: CR LF after a field has been saved. *)
Lemma read_crlf_saved fs rest :
  read_from (mkReader EAT_CRNL "" fs) true (String LF rest)
  = cons fs <$> read_from parse_reset false rest.
Proof. done. Qed.




Lemma crlf_app rest :
  lineterminator +:+ rest = String CR (String LF rest).
Proof. done. Qed.











End CsvRoundTrip.

(** * The claims *)

(** C1, as amended.  When every point element below the root is well
    specified (its first [coords] child has non-empty [x] and [y] that
    [float] accepts), the function returns one record per selected
    element, in the order of the elements, which is document order. *)
Theorem extract_all_well_specified
  (ZipFile : string -> option (gmap string string))
  (fromstring : string -> string + ET.Element)
  (path : string) (out : option string) (w : World)
  (data : string) (zip : gmap string string) (xml : string)
  (root : ET.Element) :
  files w !! path = Some data ->
  ZipFile data = Some zip ->
  zip !! "geogebra.xml" = Some xml ->
  fromstring xml = inr root ->
  Forall (fun e => exists p, well_specified e p) (ET.findall_points root) ->
  exists points,
    (extract_points_from_ggb ZipFile fromstring path out w).2 = inr points
    /\ Forall2 well_specified (ET.findall_points root) points
    /\ length points = length (ET.findall_points root)
    /\ StronglySorted ET.node_before (ET.findall_point_nodes root).
Proof.
  intros Hf Hz Hm Hx Hall.
  destruct (extract_ok ZipFile fromstring path out w data zip xml root)
    as [Hr _]; [done..|].
  exists (omap appended (ET.findall_points root)).
  pose proof (omap_appended_all _ Hall) as H2.
  split_and!; [done|done| |apply findall_point_nodes_sorted].
  symmetry. by eapply Forall2_length.
Qed.

Lemma extract_all_well_specified_witness :
  exists points,
    (extract_points_from_ggb Sample.ZipFile
       (Sample.fromstring Sample.two_points) "dir/fig.ggb" None
       Sample.world).2 = inr points
    /\ Forall2 well_specified (ET.findall_points Sample.two_points) points
    /\ length points = length (ET.findall_points Sample.two_points)
    /\ StronglySorted ET.node_before
         (ET.findall_point_nodes Sample.two_points).
Proof.
  apply (extract_all_well_specified Sample.ZipFile
           (Sample.fromstring Sample.two_points) "dir/fig.ggb" None
           Sample.world "PK..." {["geogebra.xml" := "PK..."]} "PK..."
           Sample.two_points).
  - vm_compute. reflexivity.
  - vm_compute. reflexivity.
  - vm_compute. reflexivity.
  - reflexivity.
  - change (ET.findall_points Sample.two_points)
      with [Sample.point "A" "1.5" "-2.0"; Sample.point "B" "0" "0"].
    repeat constructor.
    + exists (mkPoint "A" (S754_finite false 6755399441055744 (-52))
                      (S754_finite true 4503599627370496 (-51))),
             (Sample.coords "1.5" "-2.0").
      vm_compute. repeat split; discriminate.
    + exists (mkPoint "B" (S754_zero false) (S754_zero false)),
             (Sample.coords "0" "0").
      vm_compute. repeat split; discriminate.
Defined.

(** C1 as stated fails when the root is a point element: the document
    holds one well specified point element and no record is returned. *)
Lemma root_point_not_extracted :
  document_points Sample.root_point = [Sample.root_point]
  /\ (exists p, well_specified Sample.root_point p)
  /\ (extract_points_from_ggb Sample.ZipFile
        (Sample.fromstring Sample.root_point) "dir/fig.ggb" None
        Sample.world).2 = inr [].
Proof.
  split_and!.
  - vm_compute. reflexivity.
  - exists (mkPoint "A" (S754_finite false 4503599627370496 (-52))
                    (S754_finite false 4503599627370496 (-51))),
           (Sample.coords "1" "2").
    vm_compute. repeat split; discriminate.
  - vm_compute. reflexivity.
Qed.




(** C3, as amended.  [findall] selects exactly the elements strictly
    below the root, at any depth, whose tag is [element] and whose [type]
    is [point], in document order; the root itself is never selected. *)
Theorem findall_selects_proper_descendants (root : ET.Element) :
  (forall p e,
     (p, e) ∈ ET.findall_point_nodes root <->
     p <> [] /\ ET.subtree_at root p = Some e /\ is_point_element e)
  /\ StronglySorted ET.node_before (ET.findall_point_nodes root)
  /\ ET.findall_points root = map snd (ET.findall_point_nodes root).
Proof.
  split_and!; [|apply findall_point_nodes_sorted|done].
  intros p e. apply elem_of_findall_point_nodes.
Qed.

(** C3 as stated fails: a root that is a point element is not selected. *)
Lemma root_point_not_selected :
  is_point_element Sample.root_point
  /\ ET.subtree_at Sample.root_point [] = Some Sample.root_point
  /\ ET.findall_points Sample.root_point = [].
Proof. repeat split; vm_compute; reflexivity. Qed.

(** C4.  A file that is no ZIP archive, an archive without the member
    [geogebra.xml], and a member that is not well-formed XML each raise
    [ValueError], which is not [FileNotFoundError], and leave the files
    and the output as they were. *)
Theorem invalid_archive_raises_ValueError
  (ZipFile : string -> option (gmap string string))
  (fromstring : string -> string + ET.Element)
  (path : string) (out : option string) (w : World) (data : string) :
  files w !! path = Some data ->
  ZipFile data = None
  \/ (exists zip, ZipFile data = Some zip /\ zip !! "geogebra.xml" = None)
  \/ (exists zip xml msg, ZipFile data = Some zip
        /\ zip !! "geogebra.xml" = Some xml /\ fromstring xml = inl msg) ->
  exists msg,
    extract_points_from_ggb ZipFile fromstring path out w
      = (w, inl (ValueError msg))
    /\ forall msg', ValueError msg <> FileNotFoundError msg'.
Proof.
  intros Hf Hbad. unfold extract_points_from_ggb. rewrite Hf.
  destruct Hbad as [-> | [(zip & -> & ->) | (zip & xml & msg & -> & -> & ->)]];
    eexists; (split; [reflexivity | discriminate]).
Qed.

Lemma invalid_archive_raises_ValueError_witness :
  exists msg,
    extract_points_from_ggb Sample.ZipFile Sample.fromstring_error
      "notes.txt" None Sample.world
      = (Sample.world, inl (ValueError msg))
    /\ forall msg', ValueError msg <> FileNotFoundError msg'.
Proof.
  apply (invalid_archive_raises_ValueError Sample.ZipFile
           Sample.fromstring_error "notes.txt" None Sample.world "hello").
  - vm_compute. reflexivity.
  - left. vm_compute. reflexivity.
Defined.

(** C5.  A path that does not exist raises [FileNotFoundError]; neither
    the archive nor the parser is consulted and the files and the output
    stay as they were. *)
Theorem missing_file_raises_FileNotFoundError
  (path : string) (out : option string) (w : World) :
  files w !! path = None ->
  forall ZipFile fromstring,
    extract_points_from_ggb ZipFile fromstring path out w
      = (w, inl (FileNotFoundError ("文件不存在: " +:+ path))).
Proof.
  intros Hf ZipFile fromstring. unfold extract_points_from_ggb.
  by rewrite Hf.
Qed.

Lemma missing_file_raises_FileNotFoundError_witness :
  extract_points_from_ggb Sample.ZipFile Sample.fromstring_error
    "absent.ggb" None Sample.world
  = (Sample.world, inl (FileNotFoundError "文件不存在: absent.ggb")).
Proof.
  apply (missing_file_raises_FileNotFoundError "absent.ggb" None
           Sample.world).
  vm_compute. reflexivity.
Defined.

(** C6.  A selected element without a child [coords], or whose first
    [coords] child lacks [x] or [y] or has it empty, is passed over: no
    record, no warning, and the loop gives what it gives without the
    element. *)
Theorem visit_skips_unspecified (e : ET.Element) :
  Forall (fun d => ET.tag d <> "coords") (ET.children e)
  \/ (exists c, ET.find e "coords" = Some c
        /\ (ET.get_opt c "x" = None \/ ET.get_opt c "x" = Some ""
            \/ ET.get_opt c "y" = None \/ ET.get_opt c "y" = Some "")) ->
  visit e = Skipped
  /\ appended e = None /\ warned e = None
  /\ (forall l1 l2, loop (l1 ++ e :: l2) = loop (l1 ++ l2))
  /\ forall ZipFile fromstring path out w data zip xml root l1 l2,
       files w !! path = Some data ->
       ZipFile data = Some zip ->
       zip !! "geogebra.xml" = Some xml ->
       fromstring xml = inr root ->
       ET.findall_points root = l1 ++ e :: l2 ->
       (extract_points_from_ggb ZipFile fromstring path out w).2
       = inr (loop (l1 ++ l2)).1.
Proof.
  intros H.
  assert (visit e = Skipped) as Hv.
  { unfold visit. destruct H as [H | (c & -> & H)].
    - apply find_none in H. by rewrite H.
    - unfold ET.get, ET.get_opt in *.
      destruct H as [-> | [-> | [-> | ->]]]; simpl; try done;
        by destruct (String.eqb _ ""). }
  unfold appended, warned. rewrite Hv. split_and!; try done.
  - intros l1 l2. by apply loop_skip.
  - intros ZipFile fromstring path out w data zip xml root l1 l2
      Hf Hz Hm Hr Hsel.
    rewrite (extract_returns_loop _ _ _ _ _ _ _ _ _ Hf Hz Hm Hr), Hsel.
    by rewrite loop_skip.
Qed.

Lemma visit_skips_unspecified_witness :
  visit Sample.no_coords = Skipped
  /\ appended Sample.no_coords = None /\ warned Sample.no_coords = None
  /\ forall l1 l2,
       loop (l1 ++ Sample.no_coords :: l2) = loop (l1 ++ l2).
Proof.
  destruct (visit_skips_unspecified Sample.no_coords)
    as (H1 & H2 & H3 & H4 & _).
  - left. simpl. constructor.
  - split_and!; [exact H1 | exact H2 | exact H3 | exact H4].
Defined.



(** C10.  Only the first child named [coords] is consulted: whatever
    follows it among the children, further [coords] elements included,
    leaves the outcome for the element unchanged. *)
Theorem visit_first_coords_only
  (t : string) (a : gmap string string) (pre : list ET.Element)
  (c : ET.Element) (post post' : list ET.Element) :
  Forall (fun d => ET.tag d <> "coords") pre ->
  ET.tag c = "coords" ->
  ET.find (ET.Elem t a (pre ++ c :: post)) "coords" = Some c
  /\ visit (ET.Elem t a (pre ++ c :: post))
     = visit (ET.Elem t a (pre ++ c :: post')).
Proof.
  intros Hpre Hc. split; [by apply find_first|].
  unfold visit. by rewrite !find_first.
Qed.

Lemma visit_first_coords_only_witness :
  ET.find (Sample.twice [Sample.coords "x" "9"]) "coords"
  = Some (Sample.coords "1" "2")
  /\ visit (Sample.twice [Sample.coords "x" "9"]) = visit (Sample.twice []).
Proof.
  apply (visit_first_coords_only "element"
           (<["type" := "point"]> {["label" := "T"]})
           [ET.Elem "show" ∅ []] (Sample.coords "1" "2")
           [Sample.coords "x" "9"] []).
  - repeat constructor. simpl. discriminate.
  - reflexivity.
Defined.

(** C8.  With no output path given, an archive [dir/base.ext] is written
    to [dir/base_points.csv], and an archive [base.ext] named without a
    directory to [base_points.csv]: the base name without its extension,
    then [_points.csv], in the directory of the archive.  A name without
    a dot is kept whole. *)
Theorem default_output_path_shape (dir base ext : string) :
  Paths.has_char Paths.sep base = false ->
  Paths.has_char Paths.sep ext = false ->
  Paths.has_char "." ext = false ->
  base <> "" -> ext <> "" ->
  Paths.endswith Paths.sep dir = false ->
  destination (dir +:+ "/" +:+ base +:+ "." +:+ ext) None
  = dir +:+ "/" +:+ base +:+ "_points.csv"
  /\ destination (base +:+ "." +:+ ext) None = base +:+ "_points.csv"
  /\ forall nm, component nm -> Paths.has_char "." nm = false ->
       destination (dir +:+ "/" +:+ nm) None
       = dir +:+ "/" +:+ nm +:+ "_points.csv".
Proof.
  intros Hb He Hdot Hbne Hene Hdir.
  assert (forall b, Paths.startswith Paths.sep b = false ->
            Paths.join (if String.eqb dir "" then String Paths.sep "" else dir)
                       b = dir +:+ String Paths.sep b) as Hjoin.
  { intros b Hst. destruct (String.eqb_spec dir "") as [->|Hd].
    - unfold Paths.join. by rewrite Hst.
    - by rewrite join_file. }
  set (nm := base +:+ String "." ext).
  assert (component nm) as Hnm.
  { unfold component, nm. rewrite Paths_has_char_app. simpl.
    rewrite Hb, He. split_and!; [done| |];
      destruct base as [|a base]; try done.
    rewrite string_app_cons. intros [= -> H]. by destruct base. }
  assert (Paths.startswith Paths.sep (base +:+ "_points.csv") = false) as Hst.
  { destruct base as [|a base]; [done|]. simpl in Hb.
    apply orb_false_elim in Hb as [Ha _]. by rewrite string_app_cons. }
  unfold destination, default_output_path. simpl. split_and!.
  - change ("/" +:+ base +:+ "." +:+ ext) with (String Paths.sep nm).
    rewrite (stem_of_name (dir +:+ String Paths.sep nm) base ext);
      [|by apply name_file|done..].
    destruct Hnm as (Hs & _ & _).
    rewrite (dirname_file _ _ Hs Hdir). by apply Hjoin.
  - change (base +:+ "." +:+ ext) with nm.
    rewrite (stem_of_name nm base ext); [|by apply name_bare|done..].
    destruct Hnm as (Hs & _ & _).
    rewrite (dirname_bare _ Hs). unfold Paths.join. by rewrite Hst.
  - intros nm' Hc Hnodot.
    change ("/" +:+ nm') with (String Paths.sep nm').
    change ("/" +:+ nm' +:+ "_points.csv")
      with (String Paths.sep (nm' +:+ "_points.csv")).
    rewrite stem_no_dot; rewrite (name_file _ _ Hc); [|done].
    destruct Hc as (Hs & Hne & _).
    rewrite (dirname_file _ _ Hs Hdir). apply Hjoin.
    destruct nm' as [|a nm']; [done|]. simpl in Hs.
    apply orb_false_elim in Hs as [Ha _]. by rewrite string_app_cons.
Qed.

Lemma default_output_path_shape_witness :
  destination "dir/fig.ggb" None = "dir/fig_points.csv"
  /\ destination "fig.ggb" None = "fig_points.csv".
Proof.
  destruct (default_output_path_shape "dir" "fig" "ggb") as (H1 & H2 & _);
    try reflexivity; try discriminate.
  split; [exact H1 | exact H2].
Defined.



(** * Further properties of the function and of main *)

Section RunFacts.
Variable ZipFile : string -> option (gmap string string).
Variable fromstring : string -> string + ET.Element.

(** The two ways the function ends: it raises and leaves the world as it
    was, or it returns the records of the loop, prints the warnings and
    one summary line, and writes the file when there is a record. *)
Lemma extract_spec path out w :
  let r := extract_points_from_ggb ZipFile fromstring path out w in
  (exists e, r = (w, inl e))
  \/ (exists data zip xml root,
        files w !! path = Some data /\ ZipFile data = Some zip
        /\ zip !! "geogebra.xml" = Some xml /\ fromstring xml = inr root
        /\ let points := (loop (ET.findall_points root)).1 in
           r.2 = inr points
           /\ files r.1 = match points with
                          | [] => files w
                          | _ => <[destination path out := csv_text points]>
                                   (files w)
                          end
           /\ stdout r.1 = stdout w ++ (loop (ET.findall_points root)).2
                           ++ [summary_line points (destination path out)]).
Proof.
  simpl. unfold extract_points_from_ggb.
  destruct (files w !! path) as [data|] eqn:Hf; [|left; by eexists].
  destruct (ZipFile data) as [zip|] eqn:Hz; [|left; by eexists].
  destruct (zip !! "geogebra.xml") as [xml|] eqn:Hm; [|left; by eexists].
  destruct (fromstring xml) as [msg|root] eqn:Hx; [left; by eexists|].
  right. exists data, zip, xml, root. do 4 (split; [done|]).
  destruct (loop (ET.findall_points root)) as [points warnings].
  destruct points as [|p points]; simpl;
    (split_and!; [done | by destruct out |]);
    rewrite <- (assoc_L (++)); by destruct out.
Qed.

End RunFacts.

Section LoopFacts.


Lemma length_loop l :
  length (loop l).1 + length (loop l).2 <= length l.
Proof.
  rewrite loop_spec. simpl.
  induction l as [|e l IH]; simpl; [done|].
  unfold appended at 1, warned at 1.
  destruct (visit e); simpl; unfold omap in IH; lia.
Qed.

End LoopFacts.

Section MoreRunFacts.
Variable ZipFile : string -> option (gmap string string).
Variable fromstring : string -> string + ET.Element.

Lemma extract_frame path out w q :
  q <> destination path out ->
  files (extract_points_from_ggb ZipFile fromstring path out w).1 !! q
  = files w !! q.
Proof.
  intros Hq.
  destruct (extract_spec ZipFile fromstring path out w)
    as [[e ->] | (data & zip & xml & root & _ & _ & _ & _ & _ & -> & _)];
    [done|].
  destruct (loop (ET.findall_points root)).1; [done|].
  by rewrite lookup_insert_ne.
Qed.


End MoreRunFacts.

Section PathFacts.

Lemma default_output_path_file dir base ext :
  Paths.has_char Paths.sep base = false ->
  Paths.has_char Paths.sep ext = false ->
  Paths.has_char "." ext = false ->
  base <> "" -> ext <> "" ->
  Paths.endswith Paths.sep dir = false ->
  default_output_path (dir +:+ "/" +:+ base +:+ "." +:+ ext)
  = dir +:+ "/" +:+ base +:+ "_points.csv"
  /\ default_output_path (base +:+ "." +:+ ext) = base +:+ "_points.csv".
Proof.
  intros Hb He Hdot Hbne Hene Hdir.
  set (nm := base +:+ String "." ext).
  assert (component nm) as Hnm.
  { unfold component, nm. rewrite Paths_has_char_app. simpl.
    rewrite Hb, He. split_and!; [done| |];
      destruct base as [|a base]; try done.
    rewrite string_app_cons. intros [= -> H]. by destruct base. }
  assert (Paths.startswith Paths.sep (base +:+ "_points.csv") = false) as Hst.
  { destruct base as [|a base]; [done|]. simpl in Hb.
    apply orb_false_elim in Hb as [Ha _]. by rewrite string_app_cons. }
  unfold default_output_path. split.
  - change ("/" +:+ base +:+ "." +:+ ext) with (String Paths.sep nm).
    rewrite (stem_of_name (dir +:+ String Paths.sep nm) base ext);
      [|by apply name_file|done..].
    destruct Hnm as (Hs & _ & _). rewrite (dirname_file _ _ Hs Hdir).
    destruct (String.eqb_spec dir "") as [->|Hd].
    + unfold Paths.join. by rewrite Hst.
    + by rewrite join_file.
  - change (base +:+ "." +:+ ext) with nm.
    rewrite (stem_of_name nm base ext); [|by apply name_bare|done..].
    destruct Hnm as (Hs & _ & _).
    rewrite (dirname_bare _ Hs). unfold Paths.join. by rewrite Hst.
Qed.

Lemma suffix_differs (s ext : string) :
  s +:+ "_points.csv" <> s +:+ "." +:+ ext.
Proof. intros H. apply (inj (String.append s)) in H. discriminate H. Qed.

End PathFacts.

Section MoreLoopFacts.


Lemma length_listing points :
  length (listing points)
  = S (Nat.min 10 (length points)
       + if Nat.ltb 10 (length points) then 1 else 0).
Proof.
  unfold listing. simpl. rewrite length_app, length_map, length_take.
  by destruct (Nat.ltb 10 (length points)).
Qed.

End MoreLoopFacts.

(** * Further results *)



(** X2.  With no output path given, an archive named [dir/base.ext] or
    [base.ext] is itself never written: after the call it holds what it
    held before. *)
Theorem default_output_keeps_archive
  (ZipFile : string -> option (gmap string string))
  (fromstring : string -> string + ET.Element)
  (dir base ext : string) (w : World) :
  Paths.has_char Paths.sep base = false ->
  Paths.has_char Paths.sep ext = false ->
  Paths.has_char "." ext = false ->
  base <> "" -> ext <> "" ->
  Paths.endswith Paths.sep dir = false ->
  (let path := dir +:+ "/" +:+ base +:+ "." +:+ ext in
   files (extract_points_from_ggb ZipFile fromstring path None w).1 !! path
   = files w !! path)
  /\ (let path := base +:+ "." +:+ ext in
      files (extract_points_from_ggb ZipFile fromstring path None w).1
        !! path
      = files w !! path).
Proof.
  intros Hb He Hdot Hbne Hene Hdir.
  destruct (default_output_path_file dir base ext) as [Hd1 Hd2]; [done..|].
  simpl. split; apply extract_frame; unfold destination; simpl.
  - rewrite Hd1. intros H.
    apply (inj (String.append dir)) in H.
    apply (inj (String.append "/")) in H.
    by apply eq_sym, suffix_differs in H.
  - rewrite Hd2. intros H. by apply eq_sym, suffix_differs in H.
Qed.

Lemma default_output_keeps_archive_witness :
  files (extract_points_from_ggb Sample.ZipFile
           (Sample.fromstring Sample.two_points) "dir/fig.ggb" None
           Sample.world).1 !! "dir/fig.ggb"
  = files Sample.world !! "dir/fig.ggb".
Proof.
  refine (proj1 (default_output_keeps_archive Sample.ZipFile
                   (Sample.fromstring Sample.two_points) "dir" "fig" "ggb"
                   Sample.world _ _ _ _ _ _));
    try reflexivity; discriminate.
Defined.





(** X5.  When the function returns it has printed the warnings of the
    selected elements, in their order, and then one summary line, and
    nothing else; the records and the warnings together are at most as
    many as the selected elements. *)
Theorem printed_lines_account
  (ZipFile : string -> option (gmap string string))
  (fromstring : string -> string + ET.Element)
  (path : string) (out : option string) (w : World)
  (data : string) (zip : gmap string string) (xml : string)
  (root : ET.Element) :
  files w !! path = Some data ->
  ZipFile data = Some zip ->
  zip !! "geogebra.xml" = Some xml ->
  fromstring xml = inr root ->
  let r := extract_points_from_ggb ZipFile fromstring path out w in
  let points := omap appended (ET.findall_points root) in
  let warnings := omap warned (ET.findall_points root) in
  r.2 = inr points
  /\ stdout r.1 = stdout w ++ warnings
                  ++ [summary_line points (destination path out)]
  /\ length points + length warnings <= length (ET.findall_points root).
Proof.
  intros Hf Hz Hm Hx. simpl.
  destruct (extract_spec ZipFile fromstring path out w)
    as [[e He] | (data' & zip' & xml' & root' & Hf' & Hz' & Hm' & Hx' & H)].
  { destruct (extract_ok ZipFile fromstring path out w data zip xml root)
      as [Hr _]; [done..|].
    rewrite He in Hr. done. }
  assert (root' = root) as -> by congruence.
  simpl in H. destruct H as (Hr & _ & Hout).
  rewrite loop_spec in Hr, Hout. simpl in Hr, Hout.
  split_and!; [done..|].
  pose proof (length_loop (ET.findall_points root)) as Hlen.
  by rewrite loop_spec in Hlen.
Qed.

Lemma printed_lines_account_witness :
  let r := extract_points_from_ggb Sample.ZipFile
             (Sample.fromstring Sample.mixed) "dir/fig.ggb" None
             Sample.world in
  stdout r.1
  = ["警告: 点 'R' 的坐标无法转换为数字 (x=abc, y=1)";
     "成功提取 1 个点，已保存到: dir/fig_points.csv"].
Proof.
  intros r.
  destruct (printed_lines_account Sample.ZipFile
              (Sample.fromstring Sample.mixed) "dir/fig.ggb" None
              Sample.world "PK..." {["geogebra.xml" := "PK..."]} "PK..."
              Sample.mixed) as (_ & Hout & _).
  - vm_compute. reflexivity.
  - vm_compute. reflexivity.
  - vm_compute. reflexivity.
  - reflexivity.
  - subst r. rewrite Hout. vm_compute. reflexivity.
Defined.




(** X8.  The loop treats the elements one by one: over a list in two
    parts it gives the records of the first part followed by those of the
    second, and likewise the warnings. *)
Theorem loop_app (l1 l2 : list ET.Element) :
  loop (l1 ++ l2)
  = ((loop l1).1 ++ (loop l2).1, (loop l1).2 ++ (loop l2).2).
Proof. rewrite !loop_spec. simpl. by rewrite !omap_app. Qed.



(** X10.  When the output path given is the path of the archive and there
    is at least one record, the archive is replaced by the CSV text. *)
Theorem output_over_archive
  (ZipFile : string -> option (gmap string string))
  (fromstring : string -> string + ET.Element)
  (path : string) (w w' : World) (points : list PointRecord) :
  extract_points_from_ggb ZipFile fromstring path (Some path) w
  = (w', inr points) ->
  points <> [] ->
  files w' !! path = Some (csv_text points)
  /\ forall q, q <> path -> files w' !! q = files w !! q.
Proof.
  intros Hrun Hne.
  destruct (extract_inr _ _ _ _ _ _ _ Hrun)
    as (data & zip & xml & root & Hf & Hz & Hm & Hx).
  destruct (extract_ok ZipFile fromstring path (Some path) w data zip xml
              root) as [Hr Hfiles]; [done..|].
  rewrite Hrun in Hr, Hfiles. simpl in Hr, Hfiles. injection Hr as Hp.
  rewrite <- Hp in Hfiles. rewrite Hfiles.
  destruct points as [|p points]; [done|].
  split; [apply lookup_insert_eq|].
  intros q Hq. by apply lookup_insert_ne.
Qed.

Lemma output_over_archive_witness :
  files (extract_points_from_ggb Sample.ZipFile
           (Sample.fromstring Sample.two_points) "dir/fig.ggb"
           (Some "dir/fig.ggb") Sample.world).1 !! "dir/fig.ggb"
  = Some (csv_text
            [mkPoint "A" (S754_finite false 6755399441055744 (-52))
                     (S754_finite true 4503599627370496 (-51));
             mkPoint "B" (S754_zero false) (S754_zero false)]).
Proof.
  refine (proj1 (output_over_archive Sample.ZipFile
                   (Sample.fromstring Sample.two_points) "dir/fig.ggb"
                   Sample.world _ _ _ _)).
  - vm_compute. reflexivity.
  - discriminate.
Defined.



(** X12.  [main] exits with status 0 exactly when it has an archive
    argument and the extraction returns; it has then written nothing to
    the standard error, the files are as the extraction left them, with
    the second argument, when there is one, as the output path, and the
    listing of the points follows what the extraction printed.  Arguments
    after the second play no part. *)
Theorem main_success_iff
  (ZipFile : string -> option (gmap string string))
  (fromstring : string -> string + ET.Element)
  (argv : list string) (w : World) :
  let r := main ZipFile fromstring argv w in
  (r.2 = 0%nat \/ r.2 = 1%nat)
  /\ (r.2 = 0%nat <->
      exists a0 ggb_file rest w1 points,
        argv = a0 :: ggb_file :: rest
        /\ extract_points_from_ggb ZipFile fromstring ggb_file
             (head rest) w = (w1, inr points)
        /\ r.1 = (mkWorld (files w1) (stdout w1 ++ listing points), [])).
Proof.
  simpl. unfold main.
  destruct argv as [|a0 [|ggb_file rest]].
  - split; [by right|]. split; [done|]. by intros (? & ? & ? & ? & ? & ? & _).
  - split; [by right|]. split; [done|]. by intros (? & ? & ? & ? & ? & ? & _).
  - replace (match rest with [] => None | o :: _ => Some o end)
      with (head rest) by (by destruct rest).
    destruct (extract_points_from_ggb ZipFile fromstring ggb_file
                (head rest) w) as [w1 [e|points]] eqn:Hrun; simpl.
    + split; [by right|]. split; [done|].
      intros (? & ? & ? & ? & ? & [= <- <- <-] & Hrun' & _).
      by rewrite Hrun in Hrun'.
    + split; [by left|]. split; [|done].
      intros _. by exists a0, ggb_file, rest, w1, points.
Qed.

(** X13.  The listing that [main] prints is the header line, one line
    for each of the first ten points in their order, and a last line that
    counts the others when there are more than ten: at most twelve lines,
    and the points shown and the points counted are all the points. *)
Theorem listing_accounts (points : list PointRecord) :
  length (listing points) <= 12
  /\ (length points <= 10 ->
      listing points = listing_header :: map point_line points)
  /\ (10 < length points ->
      listing points
      = listing_header :: map point_line (take 10 points)
        ++ [remaining_line (length points - 10)]
      /\ length (take 10 points) + (length points - 10) = length points).
Proof.
  split_and!.
  - rewrite length_listing.
    destruct (Nat.ltb_spec 10 (length points)); lia.
  - intros Hle. unfold listing.
    destruct (Nat.ltb_spec 10 (length points)); [lia|].
    by rewrite app_nil_r, take_ge.
  - intros Hlt. unfold listing.
    destruct (Nat.ltb_spec 10 (length points)); [|lia].
    split; [done|]. rewrite length_take. lia.
Qed.

Lemma listing_accounts_witness :
  listing [mkPoint "A" (S754_finite false 6755399441055744 (-52))
                   (S754_finite true 4503599627370496 (-51))]
  = [listing_header; "  A: (1.5, -2.0)"].
Proof.
  rewrite (proj1 (proj2 (listing_accounts _))).
  - vm_compute. reflexivity.
  - simpl. lia.
Defined.
